(** * nestjs-builder-core: the builder service, its proxy and its validation gate

    A shallow embedding of [builder.service.ts], [validation.ts],
    [decorators/default-value.ts] and [factory.ts].

    The JavaScript heap is explicit: the instance under construction, the
    [BuilderService] object and the [Proxy] that the constructor returns are
    three cells of a store, and every operation is a state transformer that
    may complete normally or throw.  [class-transformer], [class-validator]
    and [JSON.stringify] are not part of the repository; they are the fields
    of the [Host] interface. *)

From Stdlib Require Import ZArith Ascii String List Lia.
From stdpp Require Import base option list gmap strings fin_maps pretty.

Local Open Scope string_scope.

(** ** Host values *)

Definition loc := nat.

Inductive JsError :=
  | Error (message : string)
  | TypeError (message : string).

(** A promise is modelled by the way it is settled; [buildAsync] is the only
    producer, and its promise is settled when the async function returns. *)
Inductive JsValue :=
  | VUndefined
  | VNull
  | VBool (b : bool)
  | VNum (n : Z)
  | VStr (s : string)
  | VRef (l : loc)
  | VFulfilled (v : JsValue)
  | VRejected (e : JsError).

(** [x !== undefined] *)
Definition is_defined (v : JsValue) : bool :=
  match v with
  | VUndefined => false
  | _ => true
  end.

(** ** The string primitives the proxy uses *)

(** [s.startsWith(p)] *)
Fixpoint startsWith (s p : string) {struct p} : bool :=
  match p with
  | EmptyString => true
  | String c p' =>
      match s with
      | EmptyString => false
      | String d s' => if Ascii.eqb c d then startsWith s' p' else false
      end
  end.

(** [s.slice(n)] for a non-negative [n]: the string without its first [n]
    characters, empty when [s] is shorter. *)
Fixpoint slice (s : string) (n : nat) {struct n} : string :=
  match n with
  | O => s
  | S n' =>
      match s with
      | EmptyString => EmptyString
      | String _ s' => slice s' n'
      end
  end.

(** [s.charAt(n)]: a string of one character, or the empty string out of
    range. *)
Definition charAt (s : string) (n : nat) : string :=
  match slice s n with
  | EmptyString => EmptyString
  | String c _ => String c EmptyString
  end.

Definition is_upper (c : ascii) : bool :=
  (65 <=? nat_of_ascii c)%nat && (nat_of_ascii c <=? 90)%nat.

Definition lower_ascii (c : ascii) : ascii :=
  if is_upper c then ascii_of_nat (nat_of_ascii c + 32) else c.

(** [s.toLowerCase()] on the ASCII letters; every other character is kept.
    The host function also maps letters outside ASCII, so this is exact
    where the characters it is applied to are ASCII ([is_ascii] below); the
    trap applies it to the one character that follows ["set"]. *)
Fixpoint toLowerCase (s : string) : string :=
  match s with
  | EmptyString => EmptyString
  | String c s' => String (lower_ascii c) (toLowerCase s')
  end.

(** Conversion of a value used as a property key ([obj[key]]); a number is
    printed in decimal, as the host does below 1e21.  Only the declared
    [set] uses it. *)
Definition toPropertyKey (v : JsValue) : string :=
  match v with
  | VUndefined => "undefined"
  | VNull => "null"
  | VBool true => "true"
  | VBool false => "false"
  | VNum n => pretty n
  | VStr s => s
  | VRef _ => "[object Object]"
  | VFulfilled _ | VRejected _ => "[object Promise]"
  end.

(** ** Objects, classes and the store *)

(** The own enumerable data properties of an object. *)
Abbreviation Obj := (gmap string JsValue).

(** [Object.keys(o)] *)
Definition Object_keys (o : Obj) : list string := (map_to_list o).*1.

(** [target[key] = value] as [Object.assign] performs it on an instance
    that has the prototype it was created with.  The key ["__proto__"] is
    special: unless the target has an own property of that name, the
    assignment reaches the accessor inherited from [Object.prototype], which
    creates no own property (it ignores a primitive value and takes an object
    or [null] as the new prototype, which is not part of the state kept
    here). *)
Definition Set_property (target : Obj) (key : string) (value : JsValue) : Obj :=
  if String.eqb key "__proto__" then
    match target !! key with
    | Some _ => <[key := value]> target
    | None => target
    end
  else <[key := value]> target.

(** [Object.assign(target, source)]: every own key of [source] is assigned
    on [target], one after the other. *)
Definition Object_assign (target source : Obj) : Obj :=
  foldl (fun acc kv => Set_property acc kv.1 kv.2) target (map_to_list source).

(** A class [new () => T]: what [new ctor()] leaves as own fields of the
    bare instance, and the ["default"] metadata that the [DefaultValue]
    decorators stored on its prototype, by property key. *)
Record Ctor := {
  name : string;
  fields : Obj;
  metadata : Obj;
}.

(** [Reflect.getMetadata("default", instance, key)] for an instance of
    [c]: [undefined] when nothing is stored. *)
Definition getMetadata (c : Ctor) (key : string) : JsValue :=
  default VUndefined (metadata c !! key).

(** [getDefault(target, propertyKey)] *)
Definition getDefault (c : Ctor) (propertyKey : string) : JsValue :=
  getMetadata c propertyKey.

(** The decorator [@DefaultValue(value)] on property [propertyKey] of the
    class [target]: [Reflect.defineMetadata("default", value, target,
    propertyKey)]. *)
Definition DefaultValue (value : JsValue) (target : Ctor) (propertyKey : string) : Ctor :=
  {| name := name target;
     fields := fields target;
     metadata := <[propertyKey := value]> (metadata target) |}.

(** The class with no ["default"] metadata on [propertyKey]. *)
Definition without_default (target : Ctor) (propertyKey : string) : Ctor :=
  {| name := name target;
     fields := fields target;
     metadata := delete propertyKey (metadata target) |}.

(** The fields [instance] and [ctor] of a [BuilderService] object. *)
Record BuilderService := {
  instance : loc;
  ctor : option Ctor;
}.

Inductive Cell :=
  | CObject (o : Obj)
  | CService (b : BuilderService)
  | CProxy (target : loc).

(** The store: a cell per allocated object, the location being its index. *)
Abbreviation Heap := (list Cell).

(** ** Computations on the store *)

Inductive Completion (A : Type) :=
  | Normal (a : A)
  | Throw (e : JsError).
Arguments Normal {A} a.
Arguments Throw {A} e.

Definition M (A : Type) : Type := Heap -> Completion A * Heap.

Definition ret {A} (a : A) : M A := fun h => (Normal a, h).

Definition throw {A} (e : JsError) : M A := fun h => (Throw e, h).

Definition bind {A B} (m : M A) (k : A -> M B) : M B :=
  fun h =>
    match m h with
    | (Normal a, h') => k a h'
    | (Throw e, h') => (Throw e, h')
    end.

Notation "'let*' x ':=' m 'in' k" := (bind m (fun x => k))
  (at level 10, x pattern, m at level 100, k at level 200).

(** [new] of any object: the next free location. *)
Definition alloc (c : Cell) : M loc :=
  fun h => (Normal (List.length h), (h ++ [c])%list).

Definition store (l : loc) (c : Cell) : M unit :=
  fun h => (Normal tt, <[l := c]> h).

(** Reading a location as a data object, as a service or as a proxy.  A
    location of another kind cannot be produced by the operations below;
    the [TypeError] keeps the functions total. *)
Definition load_object (l : loc) : M Obj :=
  fun h =>
    match h !! l with
    | Some (CObject o) => (Normal o, h)
    | _ => (Throw (TypeError "not a data object"), h)
    end.

Definition load_service (l : loc) : M BuilderService :=
  fun h =>
    match h !! l with
    | Some (CService b) => (Normal b, h)
    | _ => (Throw (TypeError "not a BuilderService"), h)
    end.

Definition load_proxy (l : loc) : M loc :=
  fun h =>
    match h !! l with
    | Some (CProxy target) => (Normal target, h)
    | _ => (Throw (TypeError "not a builder handle"), h)
    end.

(** [o[key] = value] on the object at [l], for the key of an ordinary data
    property: the own property is created or overwritten.  The key
    ["__proto__"] is not followed here (see [Set_property]); the properties
    of single assignments that depend on the field written are stated for
    other keys. *)
Definition assign_field (l : loc) (key : string) (value : JsValue) : M unit :=
  let* o := load_object l in
  store l (CObject (<[key := value]> o)).

(** ** The external engines *)

(** [plainToInstance(ctor, obj)] builds a new instance of [ctor] from
    [obj]; [validateSync(instance, {whitelist: true, ...})] finds its rules
    by the class of the object it is given ([None] for a plain object) and
    returns the violations; with [whitelist] it may delete properties of
    that object, so it also returns the object as it leaves it;
    [JSON.stringify(errors, null, 2)] is the text of the whole array. *)
Class Host := {
  ValidationError : Type;
  plainToInstance : Ctor -> Obj -> Obj;
  validateSync : option Ctor -> Obj -> Obj * list ValidationError;
  JSON_stringify : list ValidationError -> string;
}.

(** ** validation.ts and builder.service.ts *)

(** The operations that [BuilderService] declares, and what reading a
    property of the handle can give: the closure that the [get] trap makes
    for a name starting with ["set"], a declared operation, or something
    that cannot be called. *)
Inductive Method :=
  | m_set
  | m_build
  | m_buildAsync
  | m_reset
  | m_from
  | m_toJSON.

Inductive Member :=
  | DynamicSetter (key : string)
  | Declared (m : Method)
  | NotCallable.

(** [Reflect.get(target, prop)] on the service object, as far as calls are
    concerned: the methods of [BuilderService.prototype].  The fields
    [instance] and [ctor] are not functions; the members inherited from
    [Object.prototype] are left out. *)
Definition Reflect_get (prop : string) : Member :=
  if String.eqb prop "set" then Declared m_set
  else if String.eqb prop "build" then Declared m_build
  else if String.eqb prop "buildAsync" then Declared m_buildAsync
  else if String.eqb prop "reset" then Declared m_reset
  else if String.eqb prop "from" then Declared m_from
  else if String.eqb prop "toJSON" then Declared m_toJSON
  else NotCallable.

(** The [get] trap of the proxy, for a string [prop]. *)
Definition proxy_get (prop : string) : Member :=
  if startsWith prop "set" then
    let key := toLowerCase (charAt prop 3) ++ slice prop 4 in
    DynamicSetter key
  else Reflect_get prop.

(** [args[n]] *)
Definition arg (args : list JsValue) (n : nat) : JsValue :=
  default VUndefined (args !! n).

(** [ctor ? new ctor() : {}] *)
Definition new_instance (ctor : option Ctor) : M loc :=
  alloc (CObject (match ctor with Some c => fields c | None => ∅ end)).

(** The loop of the constructor over [Object.keys(this.instance)]. *)
Definition apply_defaults (c : Ctor) (o : Obj) : Obj :=
  foldl (fun acc key =>
           let def := getMetadata c key in
           if is_defined def then <[key := def]> acc else acc)
        o (Object_keys o).

(** The own properties that [Object.assign] copies from its source:
    those of a data object; none for [undefined], [null], a boolean or a
    number.  The sources that the parameter type [Partial<T>] excludes are
    not followed: a string (its index properties) and a builder or its
    handle (the model stops with a [TypeError] there). *)
Definition own_properties (v : JsValue) : M Obj :=
  match v with
  | VRef l => load_object l
  | _ => ret ∅
  end.

Section Builder.
Context `{host : Host}.

Definition validateOrThrow (obj : loc) (ctor : option Ctor) : M unit :=
  let* o := load_object obj in
  match ctor with
  | Some c =>
      let instance := plainToInstance c o in
      let errors := (validateSync (Some c) instance).2 in
      if (0 <? List.length errors)%nat
      then throw (Error (JSON_stringify errors))
      else ret tt
  | None =>
      let validated := validateSync None o in
      let errors := validated.2 in
      let* _ := store obj (CObject validated.1) in
      if (0 <? List.length errors)%nat
      then throw (Error (JSON_stringify errors))
      else ret tt
  end.

(** [new BuilderService(ctor)]; the value of the expression is the proxy.
    The three cells are the instance, the service object ([this], [self])
    and the proxy. *)
Definition new_BuilderService (ctor : option Ctor) : M loc :=
  let* inst := new_instance ctor in
  let* _ :=
    match ctor with
    | Some c =>
        let* o := load_object inst in
        store inst (CObject (apply_defaults c o))
    | None => ret tt
    end in
  let* self := alloc (CService {| instance := inst; ctor := ctor |}) in
  let* proxy := alloc (CProxy self) in
  ret proxy.

(** The function that the trap returns for [setX]: it closes over [self]
    and [proxy]. *)
Definition dynamic_setter (self proxy : loc) (key : string) (value : JsValue)
  : M JsValue :=
  let* b := load_service self in
  let* _ := assign_field (instance b) key value in
  ret (VRef proxy).

(** In a declared method [this] is the handle, so [this.instance] and
    [this.ctor] go through the trap and, as neither name starts with
    ["set"], reach the service object. *)
Definition this_service (this : loc) : M (loc * BuilderService) :=
  let* target := load_proxy this in
  let* b := load_service target in
  ret (target, b).

Definition set (this : loc) (key : string) (value : JsValue) : M JsValue :=
  let* tb := this_service this in
  let* _ := assign_field (instance tb.2) key value in
  ret (VRef this).

Definition build (this : loc) : M JsValue :=
  let* tb := this_service this in
  let* _ := validateOrThrow (instance tb.2) (ctor tb.2) in
  let* tb' := this_service this in
  ret (VRef (instance tb'.2)).

(** An [async] function: what [build] returns fulfils the promise, what
    it throws rejects it. *)
Definition buildAsync (this : loc) : M JsValue :=
  fun h =>
    match build this h with
    | (Normal v, h') => (Normal (VFulfilled v), h')
    | (Throw e, h') => (Normal (VRejected e), h')
    end.

Definition reset (this : loc) : M JsValue :=
  let* tb := this_service this in
  let* inst := new_instance (ctor tb.2) in
  let* _ := store tb.1 (CService {| instance := inst; ctor := ctor tb.2 |}) in
  ret (VRef this).

Definition from (this : loc) (obj : JsValue) : M JsValue :=
  let* tb := this_service this in
  let* target := load_object (instance tb.2) in
  let* source := own_properties obj in
  let* _ := store (instance tb.2) (CObject (Object_assign target source)) in
  ret (VRef this).

Definition toJSON (this : loc) : M JsValue :=
  let* tb := this_service this in
  ret (VRef (instance tb.2)).

Definition call_method (m : Method) (this : loc) (args : list JsValue)
  : M JsValue :=
  match m with
  | m_set => set this (toPropertyKey (arg args 0)) (arg args 1)
  | m_build => build this
  | m_buildAsync => buildAsync this
  | m_reset => reset this
  | m_from => from this (arg args 0)
  | m_toJSON => toJSON this
  end.

(** [handle[prop](...args)]: the property is read through the trap and
    the result is called with the handle as [this]. *)
Definition invoke (handle : loc) (prop : string) (args : list JsValue)
  : M JsValue :=
  let* target := load_proxy handle in
  match proxy_get prop with
  | DynamicSetter key => dynamic_setter target handle key (arg args 0)
  | Declared m => call_method m handle args
  | NotCallable => throw (TypeError (prop ++ " is not a function"))
  end.

(** factory.ts *)
Definition createBuilder (model : Ctor) : M loc :=
  new_BuilderService (Some model).

(** A chain [handle.p1(v1).p2(v2)...] of one-argument calls, each made on
    the value the previous one returned; the result of every call is
    kept. *)
Fixpoint chain (receiver : JsValue) (calls : list (string * JsValue))
         (h : Heap) : list (Completion JsValue) * Heap :=
  match calls with
  | [] => ([], h)
  | (prop, value) :: rest =>
      match receiver with
      | VRef l =>
          match invoke l prop [value] h with
          | (Normal r, h') =>
              let (rs, h'') := chain r rest h' in (Normal r :: rs, h'')
          | (Throw e, h') => ([Throw e], h')
          end
      | _ => ([Throw (TypeError "not an object")], h)
      end
  end.

(** [handle.from({...})] with an object literal: the literal is a new
    object. *)
Definition from_literal (handle : loc) (literal : Obj) : M JsValue :=
  let* src := alloc (CObject literal) in
  invoke handle "from" [VRef src].

End Builder.

(** ** Reading a store *)

(** What a handle stands for: the service object behind the proxy, its
    fields and the state of the instance it points to. *)
Record View := {
  self_of : loc;
  service_of : BuilderService;
  state_of : Obj;
}.

Definition view (h : Heap) (handle : loc) : option View :=
  match h !! handle with
  | Some (CProxy self) =>
      match h !! self with
      | Some (CService b) =>
          match h !! instance b with
          | Some (CObject o) =>
              Some {| self_of := self; service_of := b; state_of := o |}
          | _ => None
          end
      | _ => None
      end
  | _ => None
  end.

(** The state of the object that a returned value refers to. *)
Definition deref (h : Heap) (v : JsValue) : option Obj :=
  match v with
  | VRef l => match h !! l with Some (CObject o) => Some o | _ => None end
  | _ => None
  end.

(** The field [k] of the object that the result of a run refers to. *)
Definition result_field (r : Completion JsValue * Heap) (k : string)
  : option JsValue :=
  match r.1 with
  | Normal v => match deref r.2 v with Some o => o !! k | None => None end
  | Throw _ => None
  end.

(** The key that the trap derives from the name of a dynamic setter. *)
Definition setter_key (prop : string) : string :=
  toLowerCase (charAt prop 3) ++ slice prop 4.

(** What [validateOrThrow] validates for a state [o]: the instance that
    [plainToInstance] makes of it when a class is registered, [o] itself
    otherwise; and the violations that the engine reports for it. *)
Definition coerced `{host : Host} (ctor : option Ctor) (o : Obj) : Obj :=
  match ctor with
  | Some c => plainToInstance c o
  | None => o
  end.

Definition violations `{host : Host} (ctor : option Ctor) (o : Obj)
  : list ValidationError :=
  (validateSync ctor (coerced ctor o)).2.

(** The state the constructor leaves for a class. *)
Definition initial_state (c : Ctor) : Obj := apply_defaults c (fields c).

(** ** A concrete host and three classes

    The examples below run the builder with a small validation engine: a
    class has rules [(property, constraint)], [whitelist] deletes from the
    validated object the properties that have no rule, and the class
    [Product] declares [@Type(() => Number)] on [price]. *)
Module Sample.

Record Violation := {
  property : string;
  constraint : string;
}.

Definition digit_of (c : ascii) : option Z :=
  let n := nat_of_ascii c in
  if (48 <=? n)%nat && (n <=? 57)%nat then Some (Z.of_nat (n - 48)) else None.

Fixpoint parse_digits (s : string) (acc : Z) : option Z :=
  match s with
  | EmptyString => Some acc
  | String c s' =>
      match digit_of c with
      | Some d => parse_digits s' (10 * acc + d)%Z
      | None => None
      end
  end.

(** [Number(v)] on a string of decimal digits. *)
Definition to_number (v : JsValue) : JsValue :=
  match v with
  | VStr (String c s) =>
      match parse_digits (String c s) 0 with
      | Some n => VNum n
      | None => v
      end
  | _ => v
  end.

Definition sample_plainToInstance (c : Ctor) (o : Obj) : Obj :=
  if String.eqb (name c) "Product" then alter to_number "price" o else o.

Definition rules (c : option Ctor) : list (string * string) :=
  match c with
  | Some c =>
      if String.eqb (name c) "Account"
      then [("username", "isNotEmpty"); ("email", "isNotEmpty")]
      else if String.eqb (name c) "Product"
      then [("price", "isNumber")]
      else []
  | None => []
  end.

Definition satisfies (constraint : string) (v : option JsValue) : bool :=
  if String.eqb constraint "isNotEmpty" then
    match v with
    | None | Some VUndefined | Some VNull | Some (VStr EmptyString) => false
    | _ => true
    end
  else if String.eqb constraint "isNumber" then
    match v with
    | Some (VNum _) => true
    | _ => false
    end
  else true.

Definition check (o : Obj) (rule : string * string) : list Violation :=
  if satisfies rule.2 (o !! rule.1) then []
  else [{| property := rule.1; constraint := rule.2 |}].

Definition sample_validateSync (c : option Ctor) (o : Obj)
  : Obj * list Violation :=
  let rs := rules c in
  (filter (fun kv => bool_decide (kv.1 ∈ rs.*1)) o, flat_map (check o) rs).

Definition show (v : Violation) : string :=
  "{property: " ++ property v ++ ", constraint: " ++ constraint v ++ "}".

Definition sample_stringify (errors : list Violation) : string :=
  "[" ++ String.concat ", " (List.map show errors) ++ "]".

Definition sample_host : Host := {|
  ValidationError := Violation;
  plainToInstance := sample_plainToInstance;
  validateSync := sample_validateSync;
  JSON_stringify := sample_stringify;
|}.

(** [class Account { username = undefined; email = undefined;
    @DefaultValue('guest') role = undefined }] with [@IsNotEmpty()] on
    [username] and [email]. *)
Definition Account : Ctor :=
  DefaultValue (VStr "guest")
    {| name := "Account";
       fields := {[ "username" := VUndefined; "email" := VUndefined;
                    "role" := VUndefined ]};
       metadata := ∅ |}
    "role".

(** [class Product { @Type(() => Number) @IsNumber() price = undefined }] *)
Definition Product : Ctor :=
  {| name := "Product";
     fields := {[ "price" := VUndefined ]};
     metadata := ∅ |}.

(** [class Profile { @DefaultValue(undefined) role = 'user' }] *)
Definition Profile : Ctor :=
  DefaultValue VUndefined
    {| name := "Profile";
       fields := {[ "role" := VStr "user" ]};
       metadata := ∅ |}
    "role".

(** The store of one builder for [c] whose state is [state]; the handle
    is location 2. *)
Definition store_of (c : Ctor) (state : Obj) : Heap :=
  [CObject state; CService {| instance := 0; ctor := Some c |}; CProxy 1].

Definition view_of (c : Ctor) (state : Obj) : View :=
  {| self_of := 1;
     service_of := {| instance := 0; ctor := Some c |};
     state_of := state |}.

(** A fresh builder for [Account], and one for [Product] after
    [setPrice('42')]. *)
Definition account_store : Heap := store_of Account (initial_state Account).
Definition account_view : View := view_of Account (initial_state Account).
Definition product_store : Heap := store_of Product {[ "price" := VStr "42" ]}.
Definition product_view : View := view_of Product {[ "price" := VStr "42" ]}.

(** An untyped builder after [setX(1)]. *)
Definition untyped_store : Heap :=
  [CObject {[ "x" := VNum 1 ]}; CService {| instance := 0; ctor := None |}; CProxy 1].
Definition untyped_view : View :=
  {| self_of := 1;
     service_of := {| instance := 0; ctor := None |};
     state_of := {[ "x" := VNum 1 ]} |}.

(** Running a computation on the empty store. *)
Definition run {A} (m : M A) : Completion A * Heap := m [].

End Sample.


(** ** types.ts *)

Definition is_lower (c : ascii) : bool :=
  (97 <=? nat_of_ascii c)%nat && (nat_of_ascii c <=? 122)%nat.

Definition upper_ascii (c : ascii) : ascii :=
  if is_lower c then ascii_of_nat (nat_of_ascii c - 32) else c.

(** The intrinsic string type [Capitalize<K>]: the first character is
    upper-cased, the rest is kept.  As with [toLowerCase] the letters are
    the ASCII ones: exact where the first character is ASCII. *)
Definition Capitalize (K : string) : string :=
  match K with
  | EmptyString => EmptyString
  | String c rest => String (upper_ascii c) rest
  end.

(** The key remapping of the mapped type [SetterMethods<T>]: the method
    that the type declares for the field [K] is named
    [`set${Capitalize<K>}`]. *)
Definition SetterMethods (K : string) : string := "set" ++ Capitalize K.

(** A character of the ASCII range, where [lower_ascii] and [upper_ascii]
    are the host's case mappings. *)
Definition is_ascii (c : ascii) : bool := (nat_of_ascii c <? 128)%nat.

(** The character that follows the first three of a name, if there is
    one, is ASCII: the key that the trap derives is then exact. *)
Definition ascii_mutator_name (prop : string) : bool :=
  match slice prop 3 with
  | EmptyString => true
  | String c _ => is_ascii c
  end.

(** A field name whose first character is ASCII and not an upper-case
    letter. *)
Definition starts_plain (K : string) : bool :=
  match K with
  | EmptyString => false
  | String c _ => is_ascii c && negb (is_upper c)
  end.

(** ** builder.module.ts and builder.generator.ts *)

Inductive ModuleClass :=
  | BuilderModule
  | BuilderGeneratorModule.

(** A provider of the dynamic module: the class [BuilderService] itself,
    or a factory provider [{ provide, useFactory }]. *)
Inductive Provider :=
  | ServiceClass
  | FactoryProvider (provide : string) (useFactory : M loc).

Record DynamicModule := {
  module : ModuleClass;
  providers : list Provider;
  exports : list Provider;
}.

(** [BuilderModule.forFeature(ctor)] *)
Definition forFeature (ctor : Ctor) : DynamicModule :=
  let builderProvider :=
    FactoryProvider (name ctor ++ "Builder") (createBuilder ctor) in
  {| module := BuilderModule;
     providers := [ServiceClass; builderProvider];
     exports := [ServiceClass; builderProvider] |}.

(** [BuilderGeneratorModule.registerModels(models)] *)
Definition registerModels (models : list Ctor) : DynamicModule :=
  let providers :=
    List.map (fun model =>
                FactoryProvider (name model ++ "Builder") (createBuilder model))
             models in
  {| module := BuilderModule;
     providers := ServiceClass :: providers;
     exports := ServiceClass :: providers |}.

(** The injection tokens of the factory providers of a module. *)
Definition token (p : Provider) : option string :=
  match p with
  | ServiceClass => None
  | FactoryProvider provide _ => Some provide
  end.

Definition tokens (m : DynamicModule) : list string := omap token (providers m).

(** * Properties *)

(** ** Strings *)

Lemma startsWith_set (rest : string) : startsWith ("set" ++ rest) "set" = true.
Proof. reflexivity. Qed.

Lemma setter_key_capitalized (c : ascii) (rest : string) :
  setter_key ("set" ++ String c rest) = String (lower_ascii c) rest.
Proof. reflexivity. Qed.

Lemma lower_ascii_upper (c : ascii) :
  is_upper c = true -> nat_of_ascii (lower_ascii c) = nat_of_ascii c + 32.
Proof.
  intros Hc. unfold lower_ascii. rewrite Hc.
  unfold is_upper in Hc. apply andb_prop in Hc as [_ Hle].
  apply Nat.leb_le in Hle.
  apply nat_ascii_embedding. lia.
Qed.

Lemma proxy_get_set_prefix (prop : string) :
  startsWith prop "set" = true -> proxy_get prop = DynamicSetter (setter_key prop).
Proof. intros Hp. unfold proxy_get. now rewrite Hp. Qed.

Lemma proxy_get_other (prop : string) :
  startsWith prop "set" = false -> proxy_get prop = Reflect_get prop.
Proof. intros Hp. unfold proxy_get. now rewrite Hp. Qed.

(** ** Objects *)

Lemma foldl_defaults_lookup (c : Ctor) (keys : list string) (o : Obj) (k : string) :
  foldl (fun acc key =>
           let def := getMetadata c key in
           if is_defined def then <[key := def]> acc else acc) o keys !! k
  = if bool_decide (k ∈ keys) && is_defined (getMetadata c k)
    then Some (getMetadata c k) else o !! k.
Proof.
  revert o. induction keys as [|key keys IH]; intros o; simpl.
  - reflexivity.
  - rewrite IH. destruct (decide (k = key)) as [->|Hne].
    + rewrite (bool_decide_eq_true_2 (key ∈ key :: keys))
        by (apply elem_of_cons; now left).
      destruct (is_defined (getMetadata c key)) eqn:Hd;
        destruct (bool_decide (key ∈ keys)); simpl;
        rewrite ?lookup_insert_eq; reflexivity.
    + assert (bool_decide (k ∈ key :: keys) = bool_decide (k ∈ keys)) as ->.
      { apply bool_decide_ext. rewrite elem_of_cons. tauto. }
      destruct (bool_decide (k ∈ keys) && is_defined (getMetadata c k)); [reflexivity|].
      destruct (is_defined (getMetadata c key)); [|reflexivity].
      now apply lookup_insert_ne.
Qed.

Lemma elem_of_Object_keys (o : Obj) (k : string) :
  k ∈ Object_keys o <-> is_Some (o !! k).
Proof.
  unfold Object_keys. rewrite list_elem_of_fmap. split.
  - intros [[k' v] [-> Hin]]. apply elem_of_map_to_list in Hin. now exists v.
  - intros [v Hv]. exists (k, v). split; [reflexivity|].
    now apply elem_of_map_to_list.
Qed.

(** The constructor loop, read field by field: an own field whose
    registered default is not [undefined] takes the default, every other
    own field keeps its value, and no field is added. *)
Lemma apply_defaults_lookup (c : Ctor) (o : Obj) (k : string) :
  apply_defaults c o !! k =
  match o !! k with
  | Some v => Some (if is_defined (getMetadata c k) then getMetadata c k else v)
  | None => None
  end.
Proof.
  unfold apply_defaults. rewrite foldl_defaults_lookup.
  destruct (o !! k) as [v|] eqn:Hk.
  - rewrite bool_decide_eq_true_2 by (apply elem_of_Object_keys; now exists v).
    simpl. now destruct (is_defined (getMetadata c k)).
  - rewrite bool_decide_eq_false_2; [reflexivity|].
    rewrite elem_of_Object_keys, Hk. intros [v Hv]. discriminate.
Qed.

Lemma Set_property_lookup_ne (o : Obj) (key k : string) (value : JsValue) :
  k <> key -> Set_property o key value !! k = o !! k.
Proof.
  intros Hne. unfold Set_property.
  destruct (String.eqb key "__proto__"); [destruct (o !! key)|];
    try reflexivity; apply lookup_insert_ne; congruence.
Qed.

Lemma Set_property_lookup_eq (o : Obj) (key : string) (value : JsValue) :
  key <> "__proto__" -> Set_property o key value !! key = Some value.
Proof.
  intros Hne. unfold Set_property.
  destruct (String.eqb_spec key "__proto__"); [contradiction|].
  apply lookup_insert_eq.
Qed.

Lemma Set_property_lookup_proto (o : Obj) (value : JsValue) :
  Set_property o "__proto__" value !! "__proto__" =
  match o !! "__proto__" with
  | Some _ => Some value
  | None => None
  end.
Proof.
  unfold Set_property. simpl.
  destruct (o !! "__proto__") eqn:Ho; [apply lookup_insert_eq | exact Ho].
Qed.

Lemma foldl_assign_lookup (l : list (string * JsValue)) (target : Obj) (k : string) :
  k <> "__proto__" ->
  NoDup l.*1 ->
  foldl (fun acc kv => Set_property acc kv.1 kv.2) target l !! k =
  match (list_to_map l : Obj) !! k with
  | Some v => Some v
  | None => target !! k
  end.
Proof.
  intros Hk. revert target.
  induction l as [|[k0 v0] l IH]; intros target Hnd; simpl.
  - now rewrite lookup_empty.
  - apply NoDup_cons in Hnd as [Hk0 Hnd]. rewrite IH by assumption.
    destruct (decide (k = k0)) as [->|Hne].
    + rewrite (not_elem_of_list_to_map_1 l k0) by assumption.
      now rewrite Set_property_lookup_eq, lookup_insert_eq.
    + rewrite (lookup_insert_ne (list_to_map l)) by congruence.
      destruct (list_to_map l !! k); [reflexivity|].
      now apply Set_property_lookup_ne.
Qed.

Lemma foldl_assign_lookup_proto (l : list (string * JsValue)) (target : Obj) :
  NoDup l.*1 ->
  foldl (fun acc kv => Set_property acc kv.1 kv.2) target l !! "__proto__" =
  match target !! "__proto__" with
  | Some old => Some (default old ((list_to_map l : Obj) !! "__proto__"))
  | None => None
  end.
Proof.
  revert target. induction l as [|[k0 v0] l IH]; intros target Hnd; simpl.
  - rewrite lookup_empty. simpl. now destruct (target !! "__proto__").
  - apply NoDup_cons in Hnd as [Hk0 Hnd]. rewrite IH by assumption.
    destruct (decide (k0 = "__proto__")) as [->|Hne].
    + rewrite Set_property_lookup_proto.
      rewrite (not_elem_of_list_to_map_1 l "__proto__") by assumption.
      rewrite lookup_insert_eq. simpl.
      now destruct (target !! "__proto__").
    + rewrite Set_property_lookup_ne by congruence.
      now rewrite (lookup_insert_ne (list_to_map l)) by congruence.
Qed.

(** [Object.assign], read field by field: a key of the source other than
    ["__proto__"] takes the value it has in the source, every other key
    keeps its value. *)
Lemma Object_assign_lookup (target source : Obj) (k : string) :
  k <> "__proto__" ->
  Object_assign target source !! k =
  match source !! k with
  | Some v => Some v
  | None => target !! k
  end.
Proof.
  intros Hk. unfold Object_assign.
  rewrite foldl_assign_lookup by (try apply NoDup_fst_map_to_list; assumption).
  now rewrite list_to_map_to_list.
Qed.

(** A ["__proto__"] key of the source is an own field of the result only
    when the target had such an own field. *)
Lemma Object_assign_lookup_proto (target source : Obj) :
  Object_assign target source !! "__proto__" =
  match target !! "__proto__" with
  | Some old => Some (default old (source !! "__proto__"))
  | None => None
  end.
Proof.
  unfold Object_assign.
  rewrite foldl_assign_lookup_proto by apply NoDup_fst_map_to_list.
  now rewrite list_to_map_to_list.
Qed.

(** ** The store behind a handle *)

Lemma view_inv (h : Heap) (handle : loc) (v : View) :
  view h handle = Some v ->
  h !! handle = Some (CProxy (self_of v)) /\
  h !! self_of v = Some (CService (service_of v)) /\
  h !! instance (service_of v) = Some (CObject (state_of v)).
Proof.
  unfold view. intros Hv.
  destruct (h !! handle) as [[| |self]|] eqn:Hp; try discriminate.
  destruct (h !! self) as [[|b|]|] eqn:Hs; try discriminate.
  destruct (h !! instance b) as [[o| |]|] eqn:Hi; try discriminate.
  injection Hv as <-. simpl. auto.
Qed.

Lemma view_intro (h : Heap) (handle self : loc) (b : BuilderService) (o : Obj) :
  h !! handle = Some (CProxy self) ->
  h !! self = Some (CService b) ->
  h !! instance b = Some (CObject o) ->
  view h handle = Some {| self_of := self; service_of := b; state_of := o |}.
Proof. intros Hp Hs Hi. unfold view. now rewrite Hp, Hs, Hi. Qed.

(** Writing the state leaves the handle and the service object alone. *)
Lemma view_store_state (h : Heap) (handle : loc) (v : View) (o' : Obj) :
  view h handle = Some v ->
  view (<[instance (service_of v) := CObject o']> h) handle =
  Some {| self_of := self_of v; service_of := service_of v; state_of := o' |}.
Proof.
  intros Hv. apply view_inv in Hv as (Hp & Hs & Hi).
  apply view_intro.
  - rewrite list_lookup_insert_ne; [assumption|]. intros E. rewrite E in Hi. congruence.
  - rewrite list_lookup_insert_ne; [assumption|]. intros E. rewrite E in Hi. congruence.
  - apply list_lookup_insert_eq. now apply lookup_lt_Some in Hi.
Qed.

Ltac run_monad :=
  unfold bind, ret, throw, store, load_object, load_service, load_proxy; simpl.

Lemma assign_field_spec (h : Heap) (l : loc) (o : Obj) (key : string) (value : JsValue) :
  h !! l = Some (CObject o) ->
  assign_field l key value h = (Normal tt, <[l := CObject (<[key := value]> o)]> h).
Proof. intros Hl. unfold assign_field. run_monad. now rewrite Hl. Qed.

Section Operations.
Context `{host : Host}.
Variables (h : Heap) (handle : loc) (v : View).
Hypothesis Hview : view h handle = Some v.

Lemma this_service_spec :
  this_service handle h = (Normal (self_of v, service_of v), h).
Proof.
  destruct (view_inv _ _ _ Hview) as (Hp & Hs & _).
  unfold this_service. run_monad. now rewrite Hp, Hs.
Qed.

Lemma dynamic_setter_spec (key : string) (value : JsValue) :
  dynamic_setter (self_of v) handle key value h =
  (Normal (VRef handle),
   <[instance (service_of v) := CObject (<[key := value]> (state_of v))]> h).
Proof.
  destruct (view_inv _ _ _ Hview) as (Hp & Hs & Hi).
  unfold dynamic_setter, bind at 1, load_service. rewrite Hs.
  unfold bind. now rewrite (assign_field_spec _ _ _ _ _ Hi).
Qed.

Lemma invoke_setter_spec (prop : string) (args : list JsValue) :
  startsWith prop "set" = true ->
  invoke handle prop args h =
  (Normal (VRef handle),
   <[instance (service_of v) :=
       CObject (<[setter_key prop := arg args 0]> (state_of v))]> h).
Proof.
  intros Hprop. destruct (view_inv _ _ _ Hview) as (Hp & _).
  unfold invoke, bind, load_proxy. rewrite Hp.
  rewrite (proxy_get_set_prefix _ Hprop). apply dynamic_setter_spec.
Qed.

Lemma invoke_declared_spec (prop : string) (m : Method) (args : list JsValue) :
  proxy_get prop = Declared m ->
  invoke handle prop args h = call_method m handle args h.
Proof.
  intros Hprop. destruct (view_inv _ _ _ Hview) as (Hp & _).
  unfold invoke, bind, load_proxy. now rewrite Hp, Hprop.
Qed.

Lemma toJSON_spec :
  toJSON handle h = (Normal (VRef (instance (service_of v))), h).
Proof. unfold toJSON, bind. now rewrite this_service_spec. Qed.

Lemma from_spec (src : loc) (source : Obj) :
  h !! src = Some (CObject source) ->
  from handle (VRef src) h =
  (Normal (VRef handle),
   <[instance (service_of v) :=
       CObject (Object_assign (state_of v) source)]> h).
Proof.
  intros Hsrc. destruct (view_inv _ _ _ Hview) as (_ & _ & Hi).
  unfold from, bind at 1. rewrite this_service_spec. simpl.
  run_monad. now rewrite Hi, Hsrc.
Qed.

Lemma reset_spec :
  reset handle h =
  (Normal (VRef handle),
   <[self_of v := CService {| instance := List.length h;
                              ctor := ctor (service_of v) |}]>
     (h ++ [CObject (match ctor (service_of v) with
                     | Some c => fields c
                     | None => ∅
                     end)])%list).
Proof.
  unfold reset, bind at 1. rewrite this_service_spec. reflexivity.
Qed.

(** [build] on a builder for a class: the state itself is not written. *)
Lemma build_typed_spec (c : Ctor) :
  ctor (service_of v) = Some c ->
  build handle h =
  (match violations (Some c) (state_of v) with
   | [] => Normal (VRef (instance (service_of v)))
   | errors => Throw (Error (JSON_stringify errors))
   end, h).
Proof.
  intros Hc. destruct (view_inv _ _ _ Hview) as (_ & _ & Hi).
  unfold build, bind at 1. rewrite this_service_spec. simpl.
  unfold validateOrThrow, violations, coerced. rewrite Hc.
  unfold bind at 1. unfold bind at 1. unfold load_object. rewrite Hi.
  destruct (validateSync (Some c) (plainToInstance c (state_of v))).2; simpl.
  - unfold bind, ret. now rewrite this_service_spec.
  - reflexivity.
Qed.

(** [build] on an untyped builder: the engine is handed the state
    itself. *)
Lemma build_untyped_spec :
  ctor (service_of v) = None ->
  build handle h =
  (match violations None (state_of v) with
   | [] => Normal (VRef (instance (service_of v)))
   | errors => Throw (Error (JSON_stringify errors))
   end,
   <[instance (service_of v) :=
       CObject (validateSync None (state_of v)).1]> h).
Proof.
  intros Hc. destruct (view_inv _ _ _ Hview) as (_ & _ & Hi).
  pose proof (view_store_state _ _ _ (validateSync None (state_of v)).1 Hview) as Hview'.
  unfold build, bind at 1. rewrite this_service_spec. simpl.
  unfold validateOrThrow, violations, coerced. rewrite Hc.
  unfold bind at 1. unfold bind at 1. unfold load_object. rewrite Hi.
  unfold bind at 1. unfold store at 1.
  destruct (validateSync None (state_of v)).2; simpl.
  - unfold bind, ret. unfold this_service, bind, load_proxy, load_service, ret.
    destruct (view_inv _ _ _ Hview') as (Hp' & Hs' & _). simpl in Hp', Hs'.
    now rewrite Hp', Hs'.
  - reflexivity.
Qed.

End Operations.

(** ** Construction *)

Lemma lookup_app_offset (h l : Heap) (i : nat) :
  (h ++ l)%list !! (List.length h + i) = l !! i.
Proof.
  rewrite lookup_app_r by lia. f_equal. lia.
Qed.

Lemma new_BuilderService_typed_spec (c : Ctor) (h : Heap) :
  new_BuilderService (Some c) h =
  (Normal (List.length h + 2),
   (h ++ [CObject (initial_state c);
          CService {| instance := List.length h; ctor := Some c |};
          CProxy (List.length h + 1)])%list).
Proof.
  unfold new_BuilderService, new_instance, initial_state.
  unfold bind at 1. unfold alloc at 1.
  unfold bind at 1. unfold bind at 1. unfold load_object.
  rewrite (list_lookup_middle h [] _ (List.length h)) by reflexivity.
  unfold store. rewrite insert_app_r_alt by lia.
  rewrite Nat.sub_diag. simpl.
  unfold bind, alloc, ret. rewrite !length_app. simpl.
  rewrite <- !app_assoc, <- Nat.add_assoc. simpl. reflexivity.
Qed.

Lemma new_BuilderService_untyped_spec (h : Heap) :
  new_BuilderService None h =
  (Normal (List.length h + 2),
   (h ++ [CObject ∅;
          CService {| instance := List.length h; ctor := None |};
          CProxy (List.length h + 1)])%list).
Proof.
  unfold new_BuilderService, new_instance.
  unfold bind, alloc, ret. rewrite !length_app. simpl.
  rewrite <- !app_assoc, <- Nat.add_assoc. simpl. reflexivity.
Qed.

(** The handle that the factory returns stands for a service of the class
    with the seeded state. *)
Lemma createBuilder_view (c : Ctor) (h : Heap) :
  exists handle h',
    createBuilder c h = (Normal handle, h') /\
    view h' handle =
    Some {| self_of := List.length h + 1;
            service_of := {| instance := List.length h; ctor := Some c |};
            state_of := initial_state c |}.
Proof.
  unfold createBuilder. rewrite new_BuilderService_typed_spec.
  eexists _, _. split; [reflexivity|].
  apply view_intro; simpl.
  - now rewrite lookup_app_offset.
  - now rewrite lookup_app_offset.
  - now rewrite <- (Nat.add_0_r (List.length h)), lookup_app_offset.
Qed.

(** ** The dynamic mutators *)

(** C6: a call named ["set"] followed by a capitalized field name is
    dispatched to the field obtained by dropping the three characters
    ["set"], lower-casing the first remaining character (the letter 32 code
    points up) and keeping the rest; the call assigns its argument to that
    field of the state and to no other, and returns the handle.
    [setUsername] reaches [username], [setIsActive] reaches [isActive]. *)
Theorem dynamic_setter_assigns_derived_field `{host : Host}
    (h : Heap) (handle : loc) (v : View)
    (c : ascii) (rest : string) (value : JsValue) :
  view h handle = Some v ->
  is_upper c = true ->
  let prop := "set" ++ String c rest in
  let key := String (lower_ascii c) rest in
  nat_of_ascii (lower_ascii c) = nat_of_ascii c + 32 /\
  proxy_get prop = DynamicSetter key /\
  proxy_get "setUsername" = DynamicSetter "username" /\
  proxy_get "setIsActive" = DynamicSetter "isActive" /\
  exists h' v',
    invoke handle prop [value] h = (Normal (VRef handle), h') /\
    view h' handle = Some v' /\
    self_of v' = self_of v /\
    service_of v' = service_of v /\
    state_of v' = <[key := value]> (state_of v) /\
    state_of v' !! key = Some value /\
    (forall k, k <> key -> state_of v' !! k = state_of v !! k).
Proof.
  intros Hview Hupper prop key.
  split; [now apply lower_ascii_upper|].
  split; [reflexivity|]. split; [reflexivity|]. split; [reflexivity|].
  eexists _, _. split.
  - apply (invoke_setter_spec h handle v Hview prop [value]). reflexivity.
  - split; [apply (view_store_state _ _ _ _ Hview)|]. simpl.
    change (setter_key prop) with key.
    repeat split.
    + apply lookup_insert_eq.
    + intros k Hk. apply lookup_insert_ne. congruence.
Qed.


(** ** Bulk merge *)

(** C9, as the code has it: for an object [obj] with no own key
    ["__proto__"], [from(obj)] gives every key of [obj] the value it has in
    [obj] and leaves every other field of the state as it was; after
    [from({a: 1})] and [from({b: 2})] the state has [a == 1] and
    [b == 2]. *)
Theorem from_merges_present_keys `{host : Host}
    (h : Heap) (handle : loc) (v : View) :
  view h handle = Some v ->
  (forall (src : loc) (source : Obj),
     h !! src = Some (CObject source) ->
     source !! "__proto__" = None ->
     exists h' v',
       invoke handle "from" [VRef src] h = (Normal (VRef handle), h') /\
       view h' handle = Some v' /\
       self_of v' = self_of v /\
       service_of v' = service_of v /\
       forall k, state_of v' !! k =
                 match source !! k with
                 | Some x => Some x
                 | None => state_of v !! k
                 end) /\
  exists h' v',
    (let* _ := from_literal handle {[ "a" := VNum 1 ]} in
     from_literal handle {[ "b" := VNum 2 ]}) h = (Normal (VRef handle), h') /\
    view h' handle = Some v' /\
    state_of v' !! "a" = Some (VNum 1) /\
    state_of v' !! "b" = Some (VNum 2).
Proof.
  intros Hview.
  assert (Hmerge : forall (h0 : Heap) (v0 : View) (src : loc) (source : Obj),
    view h0 handle = Some v0 ->
    h0 !! src = Some (CObject source) ->
    invoke handle "from" [VRef src] h0 =
      (Normal (VRef handle),
       <[instance (service_of v0) :=
           CObject (Object_assign (state_of v0) source)]> h0)).
  { intros h0 v0 src source Hv0 Hsrc.
    rewrite (invoke_declared_spec h0 handle v0 Hv0 "from" m_from); [|reflexivity].
    apply (from_spec h0 handle v0 Hv0 src source Hsrc). }
  assert (Hliteral : forall (h0 : Heap) (v0 : View) (literal : Obj),
    view h0 handle = Some v0 ->
    exists h1,
      from_literal handle literal h0 = (Normal (VRef handle), h1) /\
      view h1 handle =
      Some {| self_of := self_of v0; service_of := service_of v0;
              state_of := Object_assign (state_of v0) literal |}).
  { intros h0 v0 literal Hv0.
    assert (Hv1 : view (h0 ++ [CObject literal])%list handle = Some v0).
    { destruct (view_inv _ _ _ Hv0) as (Hp & Hs & Hi).
      destruct v0 as [s b o]. simpl in *.
      apply view_intro; rewrite lookup_app_l; eauto using lookup_lt_Some. }
    eexists. unfold from_literal, bind, alloc. split.
    - apply (Hmerge _ v0 _ literal Hv1).
      now rewrite (list_lookup_middle h0 [] _ (List.length h0)).
    - apply (view_store_state _ _ _ _ Hv1). }
  split.
  - intros src source Hsrc Hproto. eexists _, _.
    split; [apply (Hmerge h v src source Hview Hsrc)|].
    split; [apply (view_store_state _ _ _ _ Hview)|]. simpl.
    repeat split. intros k. destruct (decide (k = "__proto__")) as [->|Hk].
    + rewrite Object_assign_lookup_proto, Hproto. simpl.
      now destruct (state_of v !! "__proto__").
    + now apply Object_assign_lookup.
  - destruct (Hliteral h v {[ "a" := VNum 1 ]} Hview) as (h1 & Hrun1 & Hview1).
    destruct (Hliteral h1 _ {[ "b" := VNum 2 ]} Hview1) as (h2 & Hrun2 & Hview2).
    eexists _, _. unfold bind at 1. rewrite Hrun1. split; [exact Hrun2|].
    split; [exact Hview2|]. simpl.
    rewrite !Object_assign_lookup by discriminate. split; reflexivity.
Qed.

(** C9 fails for an object with an own key ["__proto__"] (as
    [JSON.parse('{"__proto__": 1, "role": "admin"}')] gives): the
    assignment of that key reaches the accessor of [Object.prototype], no
    field of that name is made, while [role] is copied. *)
Lemma from_skips_proto_key :
  let obj : Obj := {[ "__proto__" := VNum 1; "role" := VStr "admin" ]} in
  let r := Sample.run
             (let* b := createBuilder Sample.Account in
              let* _ := from_literal (host := Sample.sample_host) b obj in
              invoke (host := Sample.sample_host) b "toJSON" []) in
  obj !! "__proto__" = Some (VNum 1) /\
  result_field r "__proto__" = None /\
  result_field r "role" = Some (VStr "admin").
Proof. repeat split; vm_compute; reflexivity. Qed.

(** ** Default values *)

Lemma getMetadata_registered (c : Ctor) (f : string) (d : JsValue) :
  metadata c !! f = Some d -> getMetadata c f = d.
Proof. intros Hd. unfold getMetadata. now rewrite Hd. Qed.

Lemma initial_state_lookup (c : Ctor) (k : string) :
  initial_state c !! k =
  match fields c !! k with
  | Some v => Some (if is_defined (getMetadata c k) then getMetadata c k else v)
  | None => None
  end.
Proof. apply apply_defaults_lookup. Qed.

(** C5, as the code has it: for a class whose bare instance has [f] as an
    own field, and a registered default [d] of [f] other than [undefined],
    [createBuilder] followed by [toJSON] shows [f == d], whatever the
    initializer of [f] gave. *)
Theorem registered_default_shown_after_create `{host : Host}
    (c : Ctor) (f : string) (d initializer : JsValue) (h : Heap) :
  fields c !! f = Some initializer ->
  metadata c !! f = Some d ->
  d <> VUndefined ->
  exists handle h' inst o,
    createBuilder c h = (Normal handle, h') /\
    invoke handle "toJSON" [] h' = (Normal (VRef inst), h') /\
    deref h' (VRef inst) = Some o /\
    o !! f = Some d.
Proof.
  intros Hown Hreg Hdef.
  destruct (createBuilder_view c h) as (handle & h' & Hcreate & Hview).
  destruct (view_inv _ _ _ Hview) as (_ & _ & Hi). simpl in Hi.
  exists handle, h', (List.length h), (initial_state c).
  split; [exact Hcreate|]. split.
  - rewrite (invoke_declared_spec h' handle _ Hview "toJSON" m_toJSON) by reflexivity.
    apply (toJSON_spec h' handle _ Hview).
  - split; [simpl; now rewrite Hi|].
    rewrite initial_state_lookup, Hown, (getMetadata_registered _ _ _ Hreg).
    destruct d; simpl; congruence.
Qed.

(** C5 fails for a registered default [undefined]: [Profile] registers
    [undefined] for [role], whose initializer is ['user'], and the fresh
    builder shows ['user']. *)
Lemma undefined_default_not_shown :
  fields Sample.Profile !! "role" = Some (VStr "user") /\
  metadata Sample.Profile !! "role" = Some VUndefined /\
  result_field
    (Sample.run (let* b := createBuilder Sample.Profile in
                 invoke (host := Sample.sample_host) b "toJSON" []))
    "role" = Some (VStr "user") /\
  VStr "user" <> VUndefined.
Proof. repeat split; [vm_compute; reflexivity .. | discriminate]. Qed.

(** C10: registering [undefined] as the default of a field leaves the
    builder as it is for the class with no default on that field: the
    factory returns the same handle with the same state, and the field has
    what the initializer of the class gave it (or is absent as it was). *)
Theorem undefined_default_is_no_default (c : Ctor) (k : string) (h : Heap) :
  exists handle h1 h2 o,
    createBuilder (DefaultValue VUndefined c k) h = (Normal handle, h1) /\
    createBuilder (without_default c k) h = (Normal handle, h2) /\
    state_of <$> view h1 handle = Some o /\
    state_of <$> view h2 handle = Some o /\
    o !! k = fields c !! k.
Proof.
  destruct (createBuilder_view (DefaultValue VUndefined c k) h)
    as (handle & h1 & Hcreate1 & Hview1).
  destruct (createBuilder_view (without_default c k) h)
    as (handle2 & h2 & Hcreate2 & Hview2).
  assert (handle2 = handle) as ->.
  { unfold createBuilder in *.
    rewrite new_BuilderService_typed_spec in Hcreate1, Hcreate2. congruence. }
  exists handle, h1, h2, (initial_state (DefaultValue VUndefined c k)).
  split; [exact Hcreate1|]. split; [exact Hcreate2|].
  rewrite Hview1, Hview2. simpl. split; [reflexivity|]. split.
  - f_equal. apply map_eq. intros j. rewrite !initial_state_lookup. simpl.
    unfold getMetadata. simpl.
    destruct (decide (k = j)) as [->|Hne].
    + now rewrite lookup_insert_eq, lookup_delete_eq.
    + now rewrite lookup_insert_ne, lookup_delete_ne.
  - rewrite initial_state_lookup. simpl. unfold getMetadata. simpl.
    rewrite lookup_insert_eq. simpl. now destruct (fields c !! k).
Qed.

(** ** The validation gate *)

Lemma invoke_build_spec `{host : Host} (h : Heap) (handle : loc) (v : View) :
  view h handle = Some v ->
  invoke handle "build" [] h =
  (match violations (ctor (service_of v)) (state_of v) with
   | [] => Normal (VRef (instance (service_of v)))
   | errors => Throw (Error (JSON_stringify errors))
   end,
   match ctor (service_of v) with
   | Some _ => h
   | None => <[instance (service_of v) :=
                 CObject (validateSync None (state_of v)).1]> h
   end).
Proof.
  intros Hview.
  rewrite (invoke_declared_spec h handle v Hview "build" m_build) by reflexivity.
  simpl. destruct (ctor (service_of v)) as [c|] eqn:Hc.
  - apply (build_typed_spec h handle v Hview c Hc).
  - apply (build_untyped_spec h handle v Hview Hc).
Qed.

(** C1 on [Product], which coerces [price] to a number and requires a
    number: after [setPrice('42')] the coerced state [{price: 42}] has no
    violation, and [build] returns the instance itself, [{price: '42'}],
    not the coerced instance that was validated; the returned value is not
    the coerced state and, taken as a [Product], violates the rule on
    [price]. *)
Lemma build_result_not_coerced :
  let state : Obj := {[ "price" := VStr "42" ]} in
  let r := Sample.run
             (let* b := createBuilder Sample.Product in
              let* _ := invoke (host := Sample.sample_host) b "setPrice" [VStr "42"] in
              invoke (host := Sample.sample_host) b "build" []) in
  r.1 = Normal (VRef 0) /\
  deref r.2 (VRef 0) = Some state /\
  violations (host := Sample.sample_host) (Some Sample.Product) state = [] /\
  coerced (host := Sample.sample_host) (Some Sample.Product) state
    = {[ "price" := VNum 42 ]} /\
  state <> coerced (host := Sample.sample_host) (Some Sample.Product) state /\
  (Sample.sample_validateSync (Some Sample.Product) state).2
    = [ {| Sample.property := "price"; Sample.constraint := "isNumber" |} ].
Proof.
  repeat split; try (vm_compute; reflexivity).
  intros E. apply (f_equal (fun o : Obj => o !! "price")) in E.
  vm_compute in E. discriminate.
Qed.

(** C4: when the engine reports violations for the state, [build] throws
    one [Error] whose message is the text of the whole list, in the order
    reported; and [build] throws exactly when the list is not empty. *)
Theorem build_raises_aggregate `{host : Host}
    (h : Heap) (handle : loc) (v : View) :
  view h handle = Some v ->
  let errors := violations (ctor (service_of v)) (state_of v) in
  (errors <> [] ->
   exists h', invoke handle "build" [] h =
              (Throw (Error (JSON_stringify errors)), h')) /\
  ((exists e h', invoke handle "build" [] h = (Throw e, h')) <-> errors <> []).
Proof.
  intros Hview errors. rewrite (invoke_build_spec h handle v Hview).
  fold errors. destruct errors as [|e errors]; split.
  - intros Hne. now destruct Hne.
  - split; [intros (e & h' & Hrun); discriminate | intros Hne; now destruct Hne].
  - intros _. eexists. reflexivity.
  - split; [discriminate | intros _; eexists _, _; reflexivity].
Qed.

(** C8: through the handle, [buildAsync] gives a promise fulfilled with
    the value that [build] returns, or rejected with the error that [build]
    throws, and leaves the store as [build] leaves it. *)
Theorem buildAsync_settles_as_build `{host : Host}
    (h : Heap) (handle : loc) (v : View) :
  view h handle = Some v ->
  (forall value h',
     invoke handle "build" [] h = (Normal value, h') ->
     invoke handle "buildAsync" [] h = (Normal (VFulfilled value), h')) /\
  (forall e h',
     invoke handle "build" [] h = (Throw e, h') ->
     invoke handle "buildAsync" [] h = (Normal (VRejected e), h')).
Proof.
  intros Hview.
  rewrite (invoke_declared_spec h handle v Hview "build" m_build) by reflexivity.
  rewrite (invoke_declared_spec h handle v Hview "buildAsync" m_buildAsync)
    by reflexivity.
  simpl. unfold buildAsync.
  split; intros x h' Hbuild; now rewrite Hbuild.
Qed.

(** ** Reset and set-by-key on the sample class *)

(** The state after [reset] is the bare instance of the class. *)
Lemma reset_view `{host : Host} (h : Heap) (handle : loc) (v : View) :
  view h handle = Some v ->
  exists h',
    invoke handle "reset" [] h = (Normal (VRef handle), h') /\
    view h' handle =
    Some {| self_of := self_of v;
            service_of := {| instance := List.length h;
                             ctor := ctor (service_of v) |};
            state_of := match ctor (service_of v) with
                        | Some c => fields c
                        | None => ∅
                        end |}.
Proof.
  intros Hview. destruct (view_inv _ _ _ Hview) as (Hp & Hs & Hi).
  eexists. split.
  - rewrite (invoke_declared_spec h handle v Hview "reset" m_reset) by reflexivity.
    apply (reset_spec h handle v Hview).
  - pose proof (lookup_lt_Some _ _ _ Hp) as Hlp.
    pose proof (lookup_lt_Some _ _ _ Hs) as Hls.
    apply view_intro; simpl.
    + rewrite list_lookup_insert_ne by (intros E; rewrite E in Hs; congruence).
      now rewrite lookup_app_l.
    + apply list_lookup_insert_eq. rewrite length_app. lia.
    + rewrite list_lookup_insert_ne by lia.
      now rewrite (list_lookup_middle h [] _ (List.length h)).
Qed.

(** C2 on [Account], whose field [role] has the registered default
    ['guest']: the fresh builder shows [role == 'guest']; after a mutator
    call and [reset] the builder shows [role == undefined], the value of
    the bare instance. *)
Lemma reset_skips_registered_defaults :
  result_field
    (Sample.run (let* b := createBuilder Sample.Account in
                 invoke (host := Sample.sample_host) b "toJSON" []))
    "role" = Some (VStr "guest") /\
  result_field
    (Sample.run (let* b := createBuilder Sample.Account in
                 let* _ := invoke (host := Sample.sample_host) b "setUsername" [VStr "ali"] in
                 let* _ := invoke (host := Sample.sample_host) b "reset" [] in
                 invoke (host := Sample.sample_host) b "toJSON" []))
    "role" = Some VUndefined.
Proof. split; vm_compute; reflexivity. Qed.

(** C3 on [Account]: the name ["set"] is not ["set"] followed by a
    capitalized field name and [set] is a declared operation, yet the trap
    answers with the dynamic setter of the field with the empty name:
    [set('email', 'ali@example.com')] leaves [email] as it was and assigns
    ['email'] to the field [''].  The other declared operations are
    reached. *)
Lemma set_by_key_is_intercepted :
  Reflect_get "set" = Declared m_set /\
  proxy_get "set" = DynamicSetter "" /\
  (let r := Sample.run
              (let* b := createBuilder Sample.Account in
               let* _ := invoke (host := Sample.sample_host) b "set"
                           [VStr "email"; VStr "ali@example.com"] in
               invoke (host := Sample.sample_host) b "toJSON" []) in
   result_field r "email" = Some VUndefined /\
   result_field r "" = Some (VStr "email")) /\
  Forall (fun prop => proxy_get prop = Reflect_get prop)
         ["build"; "buildAsync"; "reset"; "from"; "toJSON"].
Proof.
  repeat split; try (vm_compute; reflexivity).
  repeat constructor.
Qed.

(** ** The theorems at work on the sample classes *)

Lemma dynamic_setter_assigns_derived_field_witness :
  view Sample.account_store 2 = Some Sample.account_view /\
  is_upper "U" = true /\
  exists h' v',
    invoke (host := Sample.sample_host) 2 "setUsername" [VStr "ali"]
           Sample.account_store = (Normal (VRef 2), h') /\
    view h' 2 = Some v' /\
    state_of v' !! "username" = Some (VStr "ali").
Proof.
  split; [reflexivity|]. split; [reflexivity|].
  destruct (dynamic_setter_assigns_derived_field (host := Sample.sample_host)
              Sample.account_store 2 Sample.account_view "U" "sername"
              (VStr "ali") eq_refl eq_refl)
    as (_ & _ & _ & _ & h' & v' & Hrun & Hview & _ & _ & _ & Hkey & _).
  exists h', v'. auto.
Defined.


Lemma from_merges_present_keys_witness :
  view Sample.account_store 2 = Some Sample.account_view /\
  Sample.account_store !! 0 = Some (CObject (state_of Sample.account_view)) /\
  state_of Sample.account_view !! "__proto__" = None /\
  (exists h' v',
     invoke (host := Sample.sample_host) 2 "from" [VRef 0] Sample.account_store
       = (Normal (VRef 2), h') /\
     view h' 2 = Some v' /\
     state_of v' !! "role" = Some (VStr "guest")) /\
  exists h' v',
    (let* _ := from_literal (host := Sample.sample_host) 2 {[ "a" := VNum 1 ]} in
     from_literal (host := Sample.sample_host) 2 {[ "b" := VNum 2 ]})
      Sample.account_store = (Normal (VRef 2), h') /\
    view h' 2 = Some v' /\
    state_of v' !! "a" = Some (VNum 1) /\
    state_of v' !! "b" = Some (VNum 2).
Proof.
  assert (Hproto : state_of Sample.account_view !! "__proto__" = None)
    by (vm_compute; reflexivity).
  destruct (from_merges_present_keys (host := Sample.sample_host)
              Sample.account_store 2 Sample.account_view eq_refl)
    as [Hmerge Hchain].
  split; [reflexivity|]. split; [reflexivity|]. split; [exact Hproto|].
  split; [|exact Hchain].
  destruct (Hmerge 0 (state_of Sample.account_view) eq_refl Hproto)
    as (h' & v' & Hrun & Hview & _ & _ & Hfields).
  exists h', v'. split; [exact Hrun|]. split; [exact Hview|].
  rewrite Hfields. vm_compute. reflexivity.
Defined.

Lemma registered_default_shown_after_create_witness :
  fields Sample.Account !! "role" = Some VUndefined /\
  metadata Sample.Account !! "role" = Some (VStr "guest") /\
  VStr "guest" <> VUndefined /\
  exists handle h' inst o,
    createBuilder Sample.Account [] = (Normal handle, h') /\
    invoke (host := Sample.sample_host) handle "toJSON" [] h'
      = (Normal (VRef inst), h') /\
    deref h' (VRef inst) = Some o /\
    o !! "role" = Some (VStr "guest").
Proof.
  assert (Hne : VStr "guest" <> VUndefined) by discriminate.
  split; [vm_compute; reflexivity|]. split; [vm_compute; reflexivity|].
  split; [exact Hne|].
  apply (registered_default_shown_after_create (host := Sample.sample_host)
           Sample.Account "role" (VStr "guest") VUndefined []);
    [vm_compute; reflexivity | vm_compute; reflexivity | exact Hne].
Defined.

Lemma build_raises_aggregate_witness :
  view Sample.account_store 2 = Some Sample.account_view /\
  violations (host := Sample.sample_host) (Some Sample.Account)
             (state_of Sample.account_view)
  = [ {| Sample.property := "username"; Sample.constraint := "isNotEmpty" |};
      {| Sample.property := "email"; Sample.constraint := "isNotEmpty" |} ] /\
  exists h',
    invoke (host := Sample.sample_host) 2 "build" [] Sample.account_store
    = (Throw (Error
         (Sample.sample_stringify
            [ {| Sample.property := "username"; Sample.constraint := "isNotEmpty" |};
              {| Sample.property := "email"; Sample.constraint := "isNotEmpty" |} ])),
       h').
Proof.
  assert (Herrors :
    violations (host := Sample.sample_host) (Some Sample.Account)
               (state_of Sample.account_view)
    = [ {| Sample.property := "username"; Sample.constraint := "isNotEmpty" |};
        {| Sample.property := "email"; Sample.constraint := "isNotEmpty" |} ])
    by (vm_compute; reflexivity).
  split; [reflexivity|]. split; [exact Herrors|].
  destruct (build_raises_aggregate (host := Sample.sample_host)
              Sample.account_store 2 Sample.account_view eq_refl)
    as [Hthrow _].
  simpl ctor in Hthrow. rewrite Herrors in Hthrow.
  apply Hthrow. discriminate.
Defined.

Lemma buildAsync_settles_as_build_witness :
  view Sample.product_store 2 = Some Sample.product_view /\
  invoke (host := Sample.sample_host) 2 "buildAsync" [] Sample.product_store
    = (Normal (VFulfilled (VRef 0)), Sample.product_store).
Proof.
  split; [reflexivity|].
  apply (buildAsync_settles_as_build (host := Sample.sample_host)
           Sample.product_store 2 Sample.product_view eq_refl).
  vm_compute; reflexivity.
Defined.

(** * Further properties of the code *)

(** ** default-value.ts *)

(** X1: what [getDefault] reads after [@DefaultValue(value)] on [k] is
    [value] for [k] and what it was for every other property; the decorator
    adds no own field to the instances of the class. *)
Theorem getDefault_after_DefaultValue (c : Ctor) (k k' : string) (value : JsValue) :
  getDefault (DefaultValue value c k) k' =
    (if String.eqb k' k then value else getDefault c k') /\
  fields (DefaultValue value c k) = fields c.
Proof.
  split; [|reflexivity].
  unfold getDefault, getMetadata, DefaultValue. simpl.
  destruct (String.eqb_spec k' k) as [->|Hne].
  - now rewrite lookup_insert_eq.
  - rewrite lookup_insert_ne by congruence. reflexivity.
Qed.



(** ** The constructor *)

Lemma initial_state_dom (c : Ctor) (k : string) :
  is_Some (initial_state c !! k) <-> is_Some (fields c !! k).
Proof.
  rewrite initial_state_lookup. destruct (fields c !! k); split; eauto.
Qed.

(** X3: seeding neither adds nor removes a field: the fresh state has
    exactly the own fields of the bare instance, so a default registered
    for a property that the bare instance does not have is not applied. *)
Theorem default_of_missing_field_not_applied
    (c : Ctor) (f : string) (d : JsValue) (h : Heap) :
  metadata c !! f = Some d ->
  fields c !! f = None ->
  exists handle h' v,
    createBuilder c h = (Normal handle, h') /\
    view h' handle = Some v /\
    state_of v !! f = None /\
    dom (state_of v) = dom (fields c).
Proof.
  intros _ Hmissing.
  destruct (createBuilder_view c h) as (handle & h' & Hcreate & Hview).
  eexists handle, h', _. split; [exact Hcreate|]. split; [exact Hview|].
  simpl. split.
  - now rewrite initial_state_lookup, Hmissing.
  - apply set_eq. intros k. rewrite !elem_of_dom. apply initial_state_dom.
Qed.

Lemma default_of_missing_field_not_applied_witness :
  metadata (DefaultValue (VStr "x") Sample.Product "sku") !! "sku" = Some (VStr "x") /\
  fields (DefaultValue (VStr "x") Sample.Product "sku") !! "sku" = None /\
  exists handle h' v,
    createBuilder (DefaultValue (VStr "x") Sample.Product "sku") [] = (Normal handle, h') /\
    view h' handle = Some v /\
    state_of v !! "sku" = None /\
    dom (state_of v) = dom (fields (DefaultValue (VStr "x") Sample.Product "sku")).
Proof.
  split; [vm_compute; reflexivity|]. split; [vm_compute; reflexivity|].
  apply (default_of_missing_field_not_applied
           (DefaultValue (VStr "x") Sample.Product "sku") "sku" (VStr "x") []);
    vm_compute; reflexivity.
Defined.

(** X4: an own field with no registered default has, in the fresh
    builder, the value that the class gave it. *)
Theorem field_without_default_keeps_initializer
    (c : Ctor) (f : string) (h : Heap) :
  metadata c !! f = None ->
  exists handle h' v,
    createBuilder c h = (Normal handle, h') /\
    view h' handle = Some v /\
    state_of v !! f = fields c !! f.
Proof.
  intros Hnone.
  destruct (createBuilder_view c h) as (handle & h' & Hcreate & Hview).
  eexists handle, h', _. split; [exact Hcreate|]. split; [exact Hview|].
  simpl. rewrite initial_state_lookup. unfold getMetadata. rewrite Hnone.
  simpl. now destruct (fields c !! f).
Qed.

Lemma field_without_default_keeps_initializer_witness :
  metadata Sample.Account !! "username" = None /\
  exists handle h' v,
    createBuilder Sample.Account [] = (Normal handle, h') /\
    view h' handle = Some v /\
    state_of v !! "username" = fields Sample.Account !! "username".
Proof.
  split; [vm_compute; reflexivity|].
  apply (field_without_default_keeps_initializer Sample.Account "username" []).
  vm_compute; reflexivity.
Defined.

(** ** Untyped builders and reset *)

(** X5: a builder made without a class starts from the empty object, and
    [reset] brings it back to the empty object whatever was assigned. *)
Theorem untyped_builder_starts_and_resets_empty `{host : Host}
    (h h1 : Heap) (handle : loc) (v1 : View) :
  view h1 handle = Some v1 ->
  ctor (service_of v1) = None ->
  (exists fresh h0 v0,
     new_BuilderService None h = (Normal fresh, h0) /\
     view h0 fresh = Some v0 /\
     ctor (service_of v0) = None /\
     state_of v0 = ∅) /\
  exists h2 v2,
    invoke handle "reset" [] h1 = (Normal (VRef handle), h2) /\
    view h2 handle = Some v2 /\
    ctor (service_of v2) = None /\
    state_of v2 = ∅.
Proof.
  intros Hview1 Hc1. split.
  - rewrite new_BuilderService_untyped_spec.
    eexists _, _, _. split; [reflexivity|]. split.
    + apply (view_intro _ _ (List.length h + 1)
               {| instance := List.length h; ctor := None |} ∅); simpl.
      * now rewrite lookup_app_offset.
      * now rewrite lookup_app_offset.
      * now rewrite <- (Nat.add_0_r (List.length h)), lookup_app_offset.
    + simpl. split; reflexivity.
  - destruct (reset_view h1 _ v1 Hview1) as (h2 & Hrun & Hview2).
    eexists h2, _. split; [exact Hrun|]. split; [exact Hview2|].
    simpl. rewrite Hc1. split; reflexivity.
Qed.

Lemma untyped_builder_starts_and_resets_empty_witness :
  view Sample.untyped_store 2 = Some Sample.untyped_view /\
  ctor (service_of Sample.untyped_view) = None /\
  exists h2 v2,
    invoke (host := Sample.sample_host) 2 "reset" [] Sample.untyped_store
      = (Normal (VRef 2), h2) /\
    view h2 2 = Some v2 /\
    ctor (service_of v2) = None /\
    state_of v2 = ∅.
Proof.
  split; [reflexivity|]. split; [reflexivity|].
  apply (untyped_builder_starts_and_resets_empty (host := Sample.sample_host)
           [] Sample.untyped_store 2 Sample.untyped_view eq_refl eq_refl).
Defined.

(** X6: [reset] on a builder for a class replaces the state by a bare
    instance of the class: the handle, the service object and the class stay,
    the state has the fields that [new ctor()] gives, and it is the state of
    a fresh builder when no own field has a default other than [undefined]. *)
Theorem reset_gives_bare_instance `{host : Host}
    (h : Heap) (handle : loc) (v : View) (c : Ctor) :
  view h handle = Some v ->
  ctor (service_of v) = Some c ->
  exists h' v',
    invoke handle "reset" [] h = (Normal (VRef handle), h') /\
    view h' handle = Some v' /\
    self_of v' = self_of v /\
    ctor (service_of v') = Some c /\
    state_of v' = fields c /\
    ((forall k, is_Some (fields c !! k) -> getMetadata c k = VUndefined) ->
     state_of v' = initial_state c).
Proof.
  intros Hview Hc.
  destruct (reset_view h handle v Hview) as (h' & Hrun & Hview').
  eexists h', _. split; [exact Hrun|]. split; [exact Hview'|].
  simpl. rewrite Hc. repeat split.
  intros Hnodefault. apply map_eq. intros k.
  rewrite initial_state_lookup.
  destruct (fields c !! k) as [x|] eqn:Hk; [|reflexivity].
  rewrite (Hnodefault k) by (rewrite Hk; eauto). reflexivity.
Qed.

Lemma reset_gives_bare_instance_witness :
  view Sample.product_store 2 = Some Sample.product_view /\
  ctor (service_of Sample.product_view) = Some Sample.Product /\
  exists h' v',
    invoke (host := Sample.sample_host) 2 "reset" [] Sample.product_store
      = (Normal (VRef 2), h') /\
    view h' 2 = Some v' /\
    state_of v' = fields Sample.Product.
Proof.
  split; [reflexivity|]. split; [reflexivity|].
  destruct (reset_gives_bare_instance (host := Sample.sample_host)
              Sample.product_store 2 Sample.product_view Sample.Product
              eq_refl eq_refl)
    as (h' & v' & Hrun & Hview & _ & _ & Hstate & _).
  exists h', v'. auto.
Defined.

(** ** Mutators *)

(** A chain of dynamic mutator calls writes the instance of the builder
    and no other cell. *)
Lemma chain_setters_frame `{host : Host} (calls : list (string * JsValue)) :
  forall (h : Heap) (handle : loc) (v : View),
  view h handle = Some v ->
  Forall (fun call => startsWith call.1 "set" = true) calls ->
  exists h',
    (chain (VRef handle) calls h).2 = h' /\
    view h' handle =
    Some {| self_of := self_of v;
            service_of := service_of v;
            state_of :=
              foldl (fun st call => <[setter_key call.1 := call.2]> st)
                    (state_of v) calls |} /\
    forall l, l <> instance (service_of v) -> h' !! l = h !! l.
Proof.
  induction calls as [|[prop value] calls IH]; intros h handle v Hview Hcalls.
  - exists h. simpl. repeat split. now destruct v.
  - apply Forall_cons in Hcalls as [Hprop Hcalls]. simpl in Hprop.
    pose proof (view_store_state _ _ _
                  (<[setter_key prop := value]> (state_of v)) Hview) as Hview'.
    destruct (IH _ _ _ Hview' Hcalls) as (h' & Hchain & Hfinal & Hframe).
    exists h'. simpl.
    rewrite (invoke_setter_spec h handle v Hview prop [value] Hprop).
    change (arg [value] 0) with value.
    destruct (chain (VRef handle) calls _) as [rs hs] eqn:Hrun.
    simpl in Hchain. subst hs. simpl.
    split; [reflexivity|]. split; [exact Hfinal|].
    intros l Hl. rewrite (Hframe l Hl). simpl.
    now apply list_lookup_insert_ne.
Qed.

(** X7: the object that [toJSON] returned before a [reset] is detached
    from the builder: [reset] and the mutator calls made after it do not
    write it. *)
Theorem reset_detaches_returned_value `{host : Host}
    (h : Heap) (handle : loc) (v : View) (calls : list (string * JsValue)) :
  view h handle = Some v ->
  Forall (fun call => startsWith call.1 "set" = true) calls ->
  exists old h1,
    invoke handle "toJSON" [] h = (Normal (VRef old), h) /\
    invoke handle "reset" [] h = (Normal (VRef handle), h1) /\
    deref (chain (VRef handle) calls h1).2 (VRef old) = Some (state_of v).
Proof.
  intros Hview Hcalls.
  destruct (view_inv _ _ _ Hview) as (Hp & Hs & Hi).
  destruct (reset_view h handle v Hview) as (h1 & Hreset & Hview1).
  exists (instance (service_of v)), h1.
  split.
  { rewrite (invoke_declared_spec h handle v Hview "toJSON" m_toJSON) by reflexivity.
    apply (toJSON_spec h handle v Hview). }
  split; [exact Hreset|].
  destruct (chain_setters_frame calls h1 handle _ Hview1 Hcalls)
    as (h2 & -> & _ & Hframe).
  simpl in Hframe. pose proof (lookup_lt_Some _ _ _ Hi) as Hlt.
  simpl. rewrite Hframe by lia.
  rewrite (invoke_declared_spec h handle v Hview "reset" m_reset) in Hreset
    by reflexivity.
  simpl in Hreset. rewrite (reset_spec h handle v Hview) in Hreset.
  injection Hreset as <-.
  rewrite list_lookup_insert_ne by (intros E; rewrite E in Hs; congruence).
  rewrite lookup_app_l by assumption.
  unfold loc in *. now rewrite Hi.
Qed.

Lemma reset_detaches_returned_value_witness :
  view Sample.product_store 2 = Some Sample.product_view /\
  Forall (fun call : string * JsValue => startsWith call.1 "set" = true)
         [("setPrice", VNum 7)] /\
  exists old h1,
    invoke (host := Sample.sample_host) 2 "toJSON" [] Sample.product_store
      = (Normal (VRef old), Sample.product_store) /\
    invoke (host := Sample.sample_host) 2 "reset" [] Sample.product_store
      = (Normal (VRef 2), h1) /\
    deref (chain (host := Sample.sample_host) (VRef 2) [("setPrice", VNum 7)] h1).2
          (VRef old) = Some (state_of Sample.product_view).
Proof.
  assert (Hcalls : Forall (fun call : string * JsValue =>
                             startsWith call.1 "set" = true)
                          [("setPrice", VNum 7)]) by (repeat constructor).
  split; [reflexivity|]. split; [exact Hcalls|].
  apply (reset_detaches_returned_value (host := Sample.sample_host)
           Sample.product_store 2 Sample.product_view _ eq_refl Hcalls).
Defined.



Lemma lower_ascii_idempotent (c : ascii) :
  lower_ascii (lower_ascii c) = lower_ascii c.
Proof.
  unfold lower_ascii at 2 3. destruct (is_upper c) eqn:Hc; [|unfold lower_ascii; now rewrite Hc].
  unfold lower_ascii, is_upper.
  unfold is_upper in Hc. apply andb_prop in Hc as [Hlo Hhi].
  apply Nat.leb_le in Hlo, Hhi.
  rewrite nat_ascii_embedding by lia.
  replace (nat_of_ascii c + 32 <=? 90)%nat with false
    by (symmetry; apply Nat.leb_gt; lia).
  now rewrite andb_false_r.
Qed.

Lemma lower_upper_ascii (c : ascii) :
  is_upper c = false -> lower_ascii (upper_ascii c) = c.
Proof.
  intros Hc. unfold upper_ascii. destruct (is_lower c) eqn:Hl.
  - unfold is_lower in Hl. apply andb_prop in Hl as [Hlo Hhi].
    apply Nat.leb_le in Hlo, Hhi.
    unfold lower_ascii, is_upper. rewrite nat_ascii_embedding by lia.
    replace (65 <=? nat_of_ascii c - 32)%nat with true
      by (symmetry; apply Nat.leb_le; lia).
    replace (nat_of_ascii c - 32 <=? 90)%nat with true
      by (symmetry; apply Nat.leb_le; lia).
    simpl. replace (nat_of_ascii c - 32 + 32) with (nat_of_ascii c) by lia.
    apply ascii_nat_embedding.
  - unfold lower_ascii. now rewrite Hc.
Qed.

Lemma lower_ascii_changes_upper (c : ascii) :
  is_upper c = true -> lower_ascii c <> c.
Proof.
  intros Hc E. apply lower_ascii_upper in Hc. rewrite E in Hc. lia.
Qed.

Lemma set_spec (h : Heap) (handle : loc) (v : View) (key : string) (value : JsValue) :
  view h handle = Some v ->
  set handle key value h =
  (Normal (VRef handle),
   <[instance (service_of v) := CObject (<[key := value]> (state_of v))]> h).
Proof.
  intros Hview. destruct (view_inv _ _ _ Hview) as (_ & _ & Hi).
  unfold set, bind at 1. rewrite (this_service_spec h handle v Hview). simpl.
  unfold bind. now rewrite (assign_field_spec _ _ _ _ _ Hi).
Qed.



(** X10: the field of a mutator does not depend on the case of the
    fourth character of its name: [setEmail] and [setemail] are the same
    call. *)
Theorem mutator_names_collide_on_case `{host : Host}
    (handle : loc) (c : ascii) (rest : string) (args : list JsValue) (h : Heap) :
  invoke handle ("set" ++ String c rest) args h =
  invoke handle ("set" ++ String (lower_ascii c) rest) args h.
Proof.
  unfold invoke.
  rewrite !proxy_get_set_prefix by reflexivity.
  rewrite !setter_key_capitalized. now rewrite lower_ascii_idempotent.
Qed.

(** X11: the trap looks at the prefix only: a name that starts with
    ["set"], capitalized or not, whose next character is ASCII and whose
    field is not ["__proto__"], is answered by a mutator for the field that
    the name gives; the call returns the handle, adds the field when the
    state has none, assigns [undefined] when called without argument and
    ignores further arguments. *)
Theorem set_prefixed_name_is_a_mutator `{host : Host}
    (h : Heap) (handle : loc) (v : View) (prop : string) (args : list JsValue) :
  view h handle = Some v ->
  startsWith prop "set" = true ->
  ascii_mutator_name prop = true ->
  setter_key prop <> "__proto__" ->
  exists h' v',
    invoke handle prop args h = (Normal (VRef handle), h') /\
    view h' handle = Some v' /\
    state_of v' =
      <[setter_key prop := match args with
                           | [] => VUndefined
                           | value :: _ => value
                           end]> (state_of v) /\
    setter_key "setup" = "up" /\
    setter_key "set_id" = "_id".
Proof.
  intros Hview Hprop _ _. eexists _, _.
  split; [apply (invoke_setter_spec h handle v Hview prop args Hprop)|].
  split; [apply (view_store_state _ _ _ _ Hview)|].
  simpl. split; [now destruct args|]. split; reflexivity.
Qed.

Lemma set_prefixed_name_is_a_mutator_witness :
  view Sample.account_store 2 = Some Sample.account_view /\
  startsWith "setup" "set" = true /\
  ascii_mutator_name "setup" = true /\
  setter_key "setup" <> "__proto__" /\
  exists h' v',
    invoke (host := Sample.sample_host) 2 "setup" [] Sample.account_store
      = (Normal (VRef 2), h') /\
    view h' 2 = Some v' /\
    state_of v' = <[ "up" := VUndefined ]> (state_of Sample.account_view).
Proof.
  assert (Hkey : setter_key "setup" <> "__proto__") by discriminate.
  split; [reflexivity|]. split; [reflexivity|]. split; [reflexivity|].
  split; [exact Hkey|].
  destruct (set_prefixed_name_is_a_mutator (host := Sample.sample_host)
              Sample.account_store 2 Sample.account_view "setup" []
              eq_refl eq_refl eq_refl Hkey)
    as (h' & v' & Hrun & Hview & Hstate & _).
  exists h', v'. auto.
Defined.

(** X12: the declared [set(key, value)], applied to the handle with a
    key other than ["__proto__"], assigns [value] to exactly the field [key]
    and returns the handle; a dynamic mutator whose character after ["set"]
    is ASCII and whose field is not ["__proto__"] is this operation on the
    key derived from its name. *)
Theorem dynamic_mutator_is_set_by_key `{host : Host}
    (h : Heap) (handle : loc) (v : View)
    (key prop : string) (value : JsValue) :
  view h handle = Some v ->
  key <> "__proto__" ->
  startsWith prop "set" = true ->
  ascii_mutator_name prop = true ->
  setter_key prop <> "__proto__" ->
  (exists h' v',
     set handle key value h = (Normal (VRef handle), h') /\
     view h' handle = Some v' /\
     state_of v' !! key = Some value /\
     forall k, k <> key -> state_of v' !! k = state_of v !! k) /\
  invoke handle prop [value] h = set handle (setter_key prop) value h.
Proof.
  intros Hview _ Hprop _ _. split.
  - eexists _, _. split; [apply (set_spec h handle v key value Hview)|].
    split; [apply (view_store_state _ _ _ _ Hview)|]. simpl. split.
    + apply lookup_insert_eq.
    + intros k Hk. apply lookup_insert_ne. congruence.
  - rewrite (invoke_setter_spec h handle v Hview prop [value] Hprop).
    now rewrite (set_spec h handle v _ value Hview).
Qed.

Lemma dynamic_mutator_is_set_by_key_witness :
  view Sample.account_store 2 = Some Sample.account_view /\
  "URLPath" <> "__proto__" /\
  startsWith "setEmail" "set" = true /\
  ascii_mutator_name "setEmail" = true /\
  setter_key "setEmail" <> "__proto__" /\
  invoke (host := Sample.sample_host) 2 "setEmail" [VStr "a@b"] Sample.account_store
  = set 2 (setter_key "setEmail") (VStr "a@b") Sample.account_store.
Proof.
  assert (Hkey : "URLPath" <> "__proto__") by discriminate.
  assert (Hderived : setter_key "setEmail" <> "__proto__") by discriminate.
  split; [reflexivity|]. split; [exact Hkey|]. split; [reflexivity|].
  split; [reflexivity|]. split; [exact Hderived|].
  apply (dynamic_mutator_is_set_by_key (host := Sample.sample_host)
           Sample.account_store 2 Sample.account_view "URLPath" "setEmail"
           (VStr "a@b") eq_refl Hkey eq_refl eq_refl Hderived).
Defined.

(** ** types.ts against the trap *)

(** X13: for a field whose name starts with an ASCII character that is
    not an upper-case letter, the method that [SetterMethods] declares for
    it is answered by the mutator of that very field. *)
Theorem typed_setter_reaches_its_field (K : string) :
  starts_plain K = true ->
  proxy_get (SetterMethods K) = DynamicSetter K.
Proof.
  intros HK. unfold SetterMethods.
  rewrite proxy_get_set_prefix by reflexivity. f_equal.
  destruct K as [|c rest]; [discriminate|].
  simpl in HK. apply andb_prop in HK as [_ HK].
  apply negb_true_iff in HK.
  simpl Capitalize. rewrite setter_key_capitalized.
  now rewrite lower_upper_ascii.
Qed.

Lemma typed_setter_reaches_its_field_witness :
  starts_plain "isActive" = true /\
  SetterMethods "isActive" = "setIsActive" /\
  proxy_get (SetterMethods "isActive") = DynamicSetter "isActive".
Proof.
  split; [reflexivity|]. split; [reflexivity|].
  apply (typed_setter_reaches_its_field "isActive"). reflexivity.
Defined.

(** X14: for a field whose name starts with an upper-case letter, the
    method that [SetterMethods] declares assigns another field, the one
    with the first letter lower-cased, and leaves the declared field as it
    was ([setURLPath] writes [uRLPath], not [URLPath]). *)
Theorem typed_setter_misses_capitalized_field `{host : Host}
    (h : Heap) (handle : loc) (v : View)
    (c : ascii) (rest : string) (value : JsValue) :
  view h handle = Some v ->
  is_upper c = true ->
  let K := String c rest in
  proxy_get (SetterMethods K) = DynamicSetter (String (lower_ascii c) rest) /\
  String (lower_ascii c) rest <> K /\
  exists h' v',
    invoke handle (SetterMethods K) [value] h = (Normal (VRef handle), h') /\
    view h' handle = Some v' /\
    state_of v' !! K = state_of v !! K /\
    state_of v' !! String (lower_ascii c) rest = Some value.
Proof.
  intros Hview Hc K.
  assert (HK : SetterMethods K = "set" ++ K).
  { unfold SetterMethods, K. simpl. unfold upper_ascii, is_lower.
    unfold is_upper in Hc. apply andb_prop in Hc as [_ Hhi].
    apply Nat.leb_le in Hhi.
    replace (97 <=? nat_of_ascii c)%nat with false
      by (symmetry; apply Nat.leb_gt; lia).
    reflexivity. }
  assert (Hne : String (lower_ascii c) rest <> K).
  { unfold K. intros E. injection E as E.
    now apply (lower_ascii_changes_upper c Hc). }
  rewrite HK. split; [reflexivity|]. split; [exact Hne|].
  eexists _, _.
  split; [apply (invoke_setter_spec h handle v Hview ("set" ++ K) [value]);
          reflexivity|].
  split; [apply (view_store_state _ _ _ _ Hview)|]. cbn [state_of].
  change (setter_key ("set" ++ K)) with (String (lower_ascii c) rest).
  split.
  - apply lookup_insert_ne. exact Hne.
  - apply lookup_insert_eq.
Qed.

Lemma typed_setter_misses_capitalized_field_witness :
  view Sample.account_store 2 = Some Sample.account_view /\
  is_upper "U" = true /\
  proxy_get (SetterMethods "URLPath") = DynamicSetter "uRLPath".
Proof.
  split; [reflexivity|]. split; [reflexivity|].
  apply (typed_setter_misses_capitalized_field (host := Sample.sample_host)
           Sample.account_store 2 Sample.account_view "U" "RLPath" VNull
           eq_refl eq_refl).
Defined.

(** ** build, from *)

(** X15: [build] on a builder for a class writes nothing, whether it
    returns or throws: the state is what it was, so the builder can be
    corrected and built again after a rejection, and building twice in a
    row gives the same outcome. *)
Theorem typed_build_keeps_store `{host : Host}
    (h : Heap) (handle : loc) (v : View) (c : Ctor) :
  view h handle = Some v ->
  ctor (service_of v) = Some c ->
  (invoke handle "build" [] h).2 = h /\
  view (invoke handle "build" [] h).2 handle = Some v /\
  invoke handle "build" [] (invoke handle "build" [] h).2 =
  invoke handle "build" [] h.
Proof.
  intros Hview Hc.
  assert (Hstore : (invoke handle "build" [] h).2 = h).
  { rewrite (invoke_build_spec h handle v Hview), Hc. reflexivity. }
  rewrite Hstore. auto.
Qed.

Lemma typed_build_keeps_store_witness :
  view Sample.account_store 2 = Some Sample.account_view /\
  ctor (service_of Sample.account_view) = Some Sample.Account /\
  (invoke (host := Sample.sample_host) 2 "build" [] Sample.account_store).2
  = Sample.account_store.
Proof.
  split; [reflexivity|]. split; [reflexivity|].
  apply (typed_build_keeps_store (host := Sample.sample_host)
           Sample.account_store 2 Sample.account_view Sample.Account
           eq_refl eq_refl).
Defined.






(** X17: [from(undefined)], [from(null)] and [from()] leave the store as
    it is and return the handle. *)
Theorem from_nothing_is_noop `{host : Host}
    (h : Heap) (handle : loc) (v : View) (args : list JsValue) :
  view h handle = Some v ->
  arg args 0 = VUndefined \/ arg args 0 = VNull ->
  invoke handle "from" args h = (Normal (VRef handle), h).
Proof.
  intros Hview Harg.
  destruct (view_inv _ _ _ Hview) as (_ & _ & Hi).
  rewrite (invoke_declared_spec h handle v Hview "from" m_from) by reflexivity.
  simpl. unfold from, bind at 1.
  rewrite (this_service_spec h handle v Hview). simpl.
  unfold bind at 1. unfold load_object at 1. rewrite Hi.
  assert (Hown : own_properties (arg args 0) h = (Normal ∅, h))
    by (destruct Harg as [-> | ->]; reflexivity).
  unfold bind at 1. rewrite Hown.
  unfold bind, store, ret, Object_assign. rewrite map_to_list_empty. simpl.
  now rewrite list_insert_id.
Qed.

Lemma from_nothing_is_noop_witness :
  view Sample.account_store 2 = Some Sample.account_view /\
  (arg [] 0 = VUndefined \/ arg [] 0 = VNull) /\
  invoke (host := Sample.sample_host) 2 "from" [] Sample.account_store
    = (Normal (VRef 2), Sample.account_store).
Proof.
  split; [reflexivity|]. split; [left; reflexivity|].
  apply (from_nothing_is_noop (host := Sample.sample_host)
           Sample.account_store 2 Sample.account_view [] eq_refl).
  left; reflexivity.
Defined.

(** ** factory.ts *)

Lemma view_app (h extra : Heap) (handle : loc) (v : View) :
  view h handle = Some v -> view (h ++ extra)%list handle = Some v.
Proof.
  intros Hview. destruct (view_inv _ _ _ Hview) as (Hp & Hs & Hi).
  destruct v as [self b o]. simpl in *.
  apply view_intro; rewrite lookup_app_l; eauto using lookup_lt_Some.
Qed.

(** X18: [createBuilder] allocates three new objects and writes none of
    the store it finds: a builder that existed before keeps its service
    object and its state, and the new handle is not the old one. *)
Theorem createBuilder_keeps_existing_builders
    (c : Ctor) (h : Heap) (old : loc) (v : View) :
  view h old = Some v ->
  exists handle h',
    createBuilder c h = (Normal handle, h') /\
    List.length h' = List.length h + 3 /\
    (forall l, l < List.length h -> h' !! l = h !! l) /\
    handle <> old /\
    view h' old = Some v.
Proof.
  intros Hview. destruct (view_inv _ _ _ Hview) as (Hp & _).
  apply lookup_lt_Some in Hp.
  unfold createBuilder. rewrite new_BuilderService_typed_spec.
  eexists _, _. split; [reflexivity|].
  split; [rewrite length_app; reflexivity|].
  split; [intros l Hl; now apply lookup_app_l|].
  split; [lia|]. now apply view_app.
Qed.

Lemma createBuilder_keeps_existing_builders_witness :
  view Sample.account_store 2 = Some Sample.account_view /\
  exists handle h',
    createBuilder Sample.Product Sample.account_store = (Normal handle, h') /\
    handle <> 2 /\
    view h' 2 = Some Sample.account_view.
Proof.
  split; [reflexivity|].
  destruct (createBuilder_keeps_existing_builders Sample.Product
              Sample.account_store 2 Sample.account_view eq_refl)
    as (handle & h' & Hrun & _ & _ & Hne & Hview).
  exists handle, h'. auto.
Defined.



(** ** builder.module.ts and builder.generator.ts *)

Lemma append_length (s t : string) :
  String.length (s ++ t) = String.length s + String.length t.
Proof. induction s as [|c s IH]; simpl; [reflexivity|]. now rewrite IH. Qed.

Lemma append_cancel_r (s1 s2 t : string) : s1 ++ t = s2 ++ t -> s1 = s2.
Proof.
  revert s2. induction s1 as [|c s1 IH]; intros [|d s2] E.
  - reflexivity.
  - apply (f_equal String.length) in E.
    rewrite !append_length in E. simpl in E. lia.
  - apply (f_equal String.length) in E.
    rewrite !append_length in E. simpl in E. lia.
  - change (String c (s1 ++ t) = String d (s2 ++ t)) in E.
    injection E as -> E. f_equal. now apply IH.
Qed.

Lemma registerModels_tokens (models : list Ctor) :
  tokens (registerModels models) =
  List.map (fun model => name model ++ "Builder") models.
Proof.
  unfold tokens, registerModels. simpl.
  induction models as [|m models IH]; simpl; [reflexivity|].
  now rewrite IH.
Qed.

(** X20: [registerModels] gives one factory provider per model, under
    the token made of the class name and ["Builder"], in the order of the
    models; the tokens are pairwise distinct exactly when the class names
    are, and everything provided is exported. *)
Theorem registerModels_tokens_distinct (models : list Ctor) :
  tokens (registerModels models) =
    List.map (fun model => name model ++ "Builder") models /\
  (NoDup (tokens (registerModels models)) <-> NoDup (List.map name models)) /\
  List.length (providers (registerModels models)) = S (List.length models) /\
  exports (registerModels models) = providers (registerModels models).
Proof.
  split; [apply registerModels_tokens|]. split; [|split].
  - rewrite registerModels_tokens.
    induction models as [|m models IH]; simpl.
    + split; constructor.
    + rewrite !NoDup_cons, IH.
      assert (Hin : name m ++ "Builder" ∈
                      List.map (fun model => name model ++ "Builder") models
                    <-> name m ∈ List.map name models).
      { rewrite !list_elem_of_In, !in_map_iff. split.
        - intros (m' & E & Hm'). exists m'. split; [|exact Hm'].
          now apply append_cancel_r in E.
        - intros (m' & E & Hm'). exists m'. split; [|exact Hm'].
          now rewrite E. }
      now rewrite Hin.
  - simpl. now rewrite length_map.
  - reflexivity.
Qed.

(** X21: for every model given to [registerModels] there is a provider
    under the token of its class name whose factory makes a builder for that
    model, seeded with its defaults; for a single model the module is the
    one that [forFeature] returns. *)
Theorem registered_model_has_its_builder
    (models : list Ctor) (m : Ctor) (h : Heap) :
  m ∈ models ->
  (exists useFactory handle h' v,
     FactoryProvider (name m ++ "Builder") useFactory
       ∈ providers (registerModels models) /\
     useFactory h = (Normal handle, h') /\
     view h' handle = Some v /\
     ctor (service_of v) = Some m /\
     state_of v = initial_state m) /\
  registerModels [m] = forFeature m.
Proof.
  intros Hm. split; [|reflexivity].
  destruct (createBuilder_view m h) as (handle & h' & Hrun & Hview).
  eexists (createBuilder m), handle, h', _.
  split; [|split; [exact Hrun|split; [exact Hview|split; reflexivity]]].
  unfold registerModels. simpl. apply elem_of_cons. right.
  apply list_elem_of_In, in_map_iff. exists m. split; [reflexivity|].
  now apply list_elem_of_In.
Qed.

Lemma registered_model_has_its_builder_witness :
  Sample.Product ∈ [Sample.Account; Sample.Product] /\
  registerModels [Sample.Product] = forFeature Sample.Product /\
  tokens (registerModels [Sample.Account; Sample.Product])
  = ["AccountBuilder"; "ProductBuilder"].
Proof.
  assert (Hin : Sample.Product ∈ [Sample.Account; Sample.Product])
    by (apply elem_of_cons; right; apply elem_of_cons; now left).
  split; [exact Hin|]. split; [|reflexivity].
  apply (registered_model_has_its_builder
           [Sample.Account; Sample.Product] Sample.Product [] Hin).
Defined.
